(** * KerasML/score.py: the scoring entry points of the digit recogniser

    The module defines two hooks for the model-serving host:

      def init():
          global model
          model_path = Model.get_model_path('model.h5')
          model = load_model(model_path)

      def run(raw_data):
          data = np.asarray(json.loads(raw_data)['data'])
          return model.predict(data)

    Both hooks are embedded as computations in a state-and-exception monad
    over the module's global namespace and the world of the collaborators
    they call (the model registry, the Keras loader, NumPy, the predictor).
    The collaborators are not part of the repository, so the development is
    parameterised by them. *)

From Stdlib Require Import ZArith Ascii Floats.SpecFloat.
From stdpp Require Import base option strings gmap list.

Local Open Scope Z_scope.
Local Set Warnings "-register-all".

(** ** Python values built by [json.loads] *)

(** The decoder maps JSON [null], booleans, integer literals, other number
    literals, strings, arrays and objects to [None], [bool], [int],
    [float], [str], [list] and [dict] (string keys, the last duplicate
    wins). *)
Inductive pyval : Type :=
  | PyNone
  | PyBool (b : bool)
  | PyInt (n : Z)
  | PyFloat (f : spec_float)
  | PyStr (s : string)
  | PyList (items : list pyval)
  | PyDict (fields : gmap string pyval).

(** ** The collaborators

    Everything the two hooks call lives outside the repository.  [PyObj] is
    the type of the Python objects the module handles without looking
    inside (the loaded predictor, a prediction), [NdArray] the arrays of
    NumPy, [PyExc] the exceptions raised inside a collaborator and [World]
    whatever the collaborators read and write (file system, registry,
    library and object internals).  [json.loads] and [np.asarray] are
    functions of their argument; the three others also take and return the
    world.  [predict m a] is the method call [m.predict(a)] on whatever
    object [m] is, the missing attribute of an object without the method
    included. *)
Record Collaborators : Type := {
  PyObj : Type;
  NdArray : Type;
  PyExc : Type;
  World : Type;
  json_loads : string -> option pyval;
  np_asarray : pyval -> PyExc + NdArray;
  get_model_path : string -> World -> (PyExc + string) * World;
  load_model : string -> World -> (PyExc + PyObj) * World;
  predict : PyObj -> NdArray -> World -> (PyExc + PyObj) * World
}.

(** The collaborator a foreign exception came out of. *)
Inductive callee : Type :=
  | InAsarray
  | InGetModelPath
  | InLoadModel
  | InPredict.

(** The stages at which a hook can fail. *)
Inductive stage : Type :=
  | ParseStage
  | SchemaStage
  | PredictStage
  | LoadStage
  | UnboundStage.

Section Score.

Context (E : Collaborators).

(** ** Exceptions, events and state *)

(** What propagates out of a hook: the decoder's [JSONDecodeError], the
    [KeyError] and [TypeError] of the subscription [...['data']], the
    [NameError] of reading an unbound global, or an exception raised inside
    a collaborator. *)
Inductive exn : Type :=
  | JSONDecodeError
  | KeyError (key : string)
  | TypeError
  | NameError (name : string)
  | Raised (site : callee) (e : PyExc E).

(** The stage of an exception, by the expression that raised it. *)
Definition stage_of (e : exn) : stage :=
  match e with
  | JSONDecodeError => ParseStage
  | KeyError _ | TypeError | Raised InAsarray _ => SchemaStage
  | Raised InPredict _ => PredictStage
  | Raised InGetModelPath _ | Raised InLoadModel _ => LoadStage
  | NameError _ => UnboundStage
  end.

(** The calls that reach the world, in the order they are made. *)
Inductive event : Type :=
  | CallGetModelPath (name : string)
  | CallLoadModel (path : string)
  | CallPredict (m : PyObj E) (a : NdArray E).

(** The process: the module's global namespace, the collaborators' world
    and the record of the calls made so far. *)
Record state : Type := State {
  globals : gmap string (PyObj E);
  world : World E;
  trace : list event
}.

(** A computation returns a value or raises, and leaves a state either
    way. *)
Definition M (A : Type) : Type := state -> (exn + A) * state.

Definition bind {A B} (c : M A) (k : A -> M B) : M B :=
  fun st =>
    match c st with
    | (inr a, st') => k a st'
    | (inl e, st') => (inl e, st')
    end.

Notation "x <~ c ;; k" := (bind c (fun x => k))
  (at level 100, c at next level, right associativity).

(** A pure step that may raise. *)
Definition lift {A} (r : exn + A) : M A := fun st => (r, st).

(** A call into the world: recorded, run on the current world, and its
    exception, if any, tagged with the collaborator. *)
Definition call {A} (site : callee) (ev : event)
    (f : World E -> (PyExc E + A) * World E) : M A :=
  fun st =>
    let (r, w) := f (world st) in
    (match r with inl e => inl (Raised site e) | inr a => inr a end,
     State (globals st) w (trace st ++ [ev])).

(** Reading a global name: [NameError] when it is unbound. *)
Definition load_global (name : string) : M (PyObj E) :=
  fun st =>
    match globals st !! name with
    | Some v => (inr v, st)
    | None => (inl (NameError name), st)
    end.

(** Assignment to a name declared [global]. *)
Definition store_global (name : string) (v : PyObj E) : M unit :=
  fun st => (inr tt, State (<[name := v]> (globals st)) (world st) (trace st)).

(** ** The expressions of [run] *)

(** [v[key]] for a string key: a dict is looked up, every other value
    produced by the decoder (list, str, int, float, bool, None) refuses a
    string subscript. *)
Definition subscript (v : pyval) (key : string) : exn + pyval :=
  match v with
  | PyDict fields =>
      match fields !! key with
      | Some x => inr x
      | None => inl (KeyError key)
      end
  | _ => inl TypeError
  end.

Definition loads (raw_data : string) : exn + pyval :=
  match json_loads E raw_data with
  | Some v => inr v
  | None => inl JSONDecodeError
  end.

Definition asarray (v : pyval) : exn + NdArray E :=
  match np_asarray E v with
  | inr a => inr a
  | inl e => inl (Raised InAsarray e)
  end.

(** ** The two hooks

    The names [json], [np], [Model] and [load_model] are bound by the
    import statements of the module and rebound by neither hook; the hooks
    are embedded with these names bound to the collaborators.  [globals]
    holds the names the hooks bind and read themselves. *)

Definition init : M unit :=
  model_path <~ call InGetModelPath (CallGetModelPath "model.h5")
                  (get_model_path E "model.h5");;
  model <~ call InLoadModel (CallLoadModel model_path)
             (load_model E model_path);;
  store_global "model" model.

Definition run (raw_data : string) : M (PyObj E) :=
  parsed <~ lift (loads raw_data);;
  field <~ lift (subscript parsed "data");;
  data <~ lift (asarray field);;
  model <~ load_global "model";;
  call InPredict (CallPredict model data) (predict E model data).

(** [model.predict(np.asarray(v))] on a predictor held directly, not read
    from the module's globals: the reference [run] is compared with. *)
Definition direct_predict (m : PyObj E) (v : pyval) : M (PyObj E) :=
  fun st =>
    match np_asarray E v with
    | inl e => (inl (Raised InAsarray e), st)
    | inr a =>
        let (r, w) := predict E m a (world st) in
        (match r with inl e => inl (Raised InPredict e) | inr out => inr out end,
         State (globals st) w (trace st ++ [CallPredict m a]))
    end.

(** The five ways a call of [run] can end. *)
Inductive run_outcome (raw : string) (st : state) : Prop :=
  | EndsInDecoder :
      json_loads E raw = None ->
      run raw st = (inl JSONDecodeError, st) ->
      run_outcome raw st
  | EndsInSubscript j e :
      json_loads E raw = Some j ->
      subscript j "data" = inl e ->
      run raw st = (inl e, st) ->
      run_outcome raw st
  | EndsInAsarray j v e :
      json_loads E raw = Some j ->
      subscript j "data" = inr v ->
      np_asarray E v = inl e ->
      run raw st = (inl (Raised InAsarray e), st) ->
      run_outcome raw st
  | EndsUnbound j v a :
      json_loads E raw = Some j ->
      subscript j "data" = inr v ->
      np_asarray E v = inr a ->
      globals st !! "model" = None ->
      run raw st = (inl (NameError "model"), st) ->
      run_outcome raw st
  | EndsInPredict j v a m :
      json_loads E raw = Some j ->
      subscript j "data" = inr v ->
      np_asarray E v = inr a ->
      globals st !! "model" = Some m ->
      run raw st =
        ((match (predict E m a (world st)).1 with
          | inl e => inl (Raised InPredict e)
          | inr out => inr out
          end),
         State (globals st) (predict E m a (world st)).2
           (trace st ++ [CallPredict m a])) ->
      run_outcome raw st.

(** The predictor only reads: a prediction leaves the world as it was. *)
Definition read_only_predictor : Prop :=
  forall m a w, (predict E m a w).2 = w.

(** The predictor is repeatable: asked again in the world its answer left,
    it answers the same. *)
Definition repeatable_predictor : Prop :=
  forall m a w,
    (predict E m a (predict E m a w).2).1 = (predict E m a w).1.

(** Successive calls of [run], one per payload, each in the state the call
    before it left, whatever its outcome: the outcomes in order and the
    final state. *)
Fixpoint serve (payloads : list string) (st : state)
    : list (exn + PyObj E) * state :=
  match payloads with
  | [] => ([], st)
  | raw :: rest =>
      let (r, st') := run raw st in
      let (rs, st'') := serve rest st' in
      (r :: rs, st'')
  end.

End Score.

Arguments JSONDecodeError {E}.
Arguments KeyError {E} key.
Arguments TypeError {E}.
Arguments NameError {E} name.
Arguments Raised {E} site e.
Arguments CallGetModelPath {E} name.
Arguments CallLoadModel {E} path.
Arguments CallPredict {E} m a.
Arguments State {E} globals world trace.
Arguments globals {E} s.
Arguments world {E} s.
Arguments trace {E} s.
Arguments stage_of {E} e.

(** ** The payload as the specification sees it *)

(** The [data] field of a decoded payload: only an object has fields. *)
Definition field_of (v : pyval) (key : string) : option pyval :=
  match v with
  | PyDict fields => fields !! key
  | _ => None
  end.

Definition is_number (v : pyval) : bool :=
  match v with
  | PyInt _ | PyFloat _ => true
  | _ => false
  end.

(** A nested numeric array: a list whose items are numbers or nested
    numeric arrays. *)
Fixpoint numeric_array (v : pyval) : bool :=
  match v with
  | PyList items => forallb (fun x => is_number x || numeric_array x) items
  | _ => false
  end.

(** ** A concrete set of collaborators

    A small decoder, array constructor, registry, loader and predictor, to
    run the hooks on concrete payloads. *)
Module Sample.

(** *** A decoder for a fragment of JSON

    Whitespace, [null], [true], [false], integer literals, strings without
    escapes, arrays and objects.  Anything else, number literals with a
    fraction or an exponent included, is rejected. *)

Definition dq : ascii := "034"%char.

Definition is_ws (c : ascii) : bool :=
  Ascii.eqb c " " || Ascii.eqb c "009" || Ascii.eqb c "010" || Ascii.eqb c "013".

Fixpoint skip_ws (s : string) : string :=
  match s with
  | String c r => if is_ws c then skip_ws r else s
  | EmptyString => s
  end.

Fixpoint strip_prefix (p s : string) : option string :=
  match p, s with
  | EmptyString, _ => Some s
  | String a p', String b s' =>
      if Ascii.eqb a b then strip_prefix p' s' else None
  | String _ _, EmptyString => None
  end.

Definition digit_of (c : ascii) : option Z :=
  let n := Z.of_nat (nat_of_ascii c) in
  if (48 <=? n) && (n <=? 57) then Some (n - 48) else None.

Fixpoint parse_digits (acc : Z) (s : string) : Z * string :=
  match s with
  | String c r =>
      match digit_of c with
      | Some d => parse_digits (10 * acc + d) r
      | None => (acc, s)
      end
  | EmptyString => (acc, s)
  end.

(** [0], or a non-zero digit followed by digits. *)
Definition parse_nat (s : string) : option (Z * string) :=
  match s with
  | String c r =>
      match digit_of c with
      | Some 0 => Some (0, r)
      | Some d => Some (parse_digits d r)
      | None => None
      end
  | EmptyString => None
  end.

Definition parse_int (s : string) : option (Z * string) :=
  match s with
  | String "-" r =>
      match parse_nat r with
      | Some (n, r') => Some (- n, r')
      | None => None
      end
  | _ => parse_nat s
  end.

(** The characters up to the closing quote; a backslash or a control
    character ends the fragment. *)
Fixpoint parse_string_body (s : string) : option (string * string) :=
  match s with
  | String c r =>
      if Ascii.eqb c dq then Some (EmptyString, r)
      else if Ascii.eqb c "\" || (nat_of_ascii c <? 32)%nat then None
      else
        match parse_string_body r with
        | Some (body, r') => Some (String c body, r')
        | None => None
        end
  | EmptyString => None
  end.

Definition parse_literal (s : string) : option (pyval * string) :=
  match strip_prefix "null" s, strip_prefix "true" s, strip_prefix "false" s with
  | Some r, _, _ => Some (PyNone, r)
  | _, Some r, _ => Some (PyBool true, r)
  | _, _, Some r => Some (PyBool false, r)
  | _, _, _ =>
      match parse_int s with
      | Some (n, r) => Some (PyInt n, r)
      | None => None
      end
  end.

Fixpoint parse_value (fuel : nat) (s : string) : option (pyval * string) :=
  match fuel with
  | O => None
  | S fuel' =>
      match skip_ws s with
      | String "[" r =>
          match skip_ws r with
          | String "]" r' => Some (PyList [], r')
          | _ => parse_elements fuel' r []
          end
      | String "{" r =>
          match skip_ws r with
          | String "}" r' => Some (PyDict ∅, r')
          | _ => parse_members fuel' r ∅
          end
      | String c r =>
          if Ascii.eqb c dq then
            match parse_string_body r with
            | Some (body, r') => Some (PyStr body, r')
            | None => None
            end
          else parse_literal (String c r)
      | EmptyString => None
      end
  end
with parse_elements (fuel : nat) (s : string) (acc : list pyval)
    : option (pyval * string) :=
  match fuel with
  | O => None
  | S fuel' =>
      match parse_value fuel' s with
      | Some (v, r) =>
          match skip_ws r with
          | String "," r' => parse_elements fuel' r' (v :: acc)
          | String "]" r' => Some (PyList (rev (v :: acc)), r')
          | _ => None
          end
      | None => None
      end
  end
with parse_members (fuel : nat) (s : string) (acc : gmap string pyval)
    : option (pyval * string) :=
  match fuel with
  | O => None
  | S fuel' =>
      match skip_ws s with
      | String c r =>
          if Ascii.eqb c dq then
            match parse_string_body r with
            | Some (key, r1) =>
                match skip_ws r1 with
                | String ":" r2 =>
                    match parse_value fuel' r2 with
                    | Some (v, r3) =>
                        match skip_ws r3 with
                        | String "," r4 => parse_members fuel' r4 (<[key := v]> acc)
                        | String "}" r4 => Some (PyDict (<[key := v]> acc), r4)
                        | _ => None
                        end
                    | None => None
                    end
                | _ => None
                end
            | None => None
            end
          else None
      | EmptyString => None
      end
  end.

Definition decode (s : string) : option pyval :=
  match parse_value (2 * String.length s + 2) s with
  | Some (v, r) =>
      match skip_ws r with
      | EmptyString => Some v
      | String _ _ => None
      end
  | None => None
  end.

(** *** Arrays, objects and the world

    An array is the nested value it was built from ([np.asarray] of that
    NumPy generation accepts every decoded value: a scalar, a string or a
    dict becomes a zero-dimensional array).  The objects are linear
    predictors and their outputs; the world is the registry, from model
    names to paths, and the files holding serialised predictors.  Foreign
    exceptions are named by their class. *)

Inductive obj : Type :=
  | Linear (weights : list Z)
  | Scores (rows : list Z).

Record files : Type := Files {
  registry : gmap string string;
  disk : gmap string obj
}.

Fixpoint dot (ws : list Z) (xs : list pyval) : option Z :=
  match ws, xs with
  | [], [] => Some 0
  | w :: ws', PyInt x :: xs' =>
      match dot ws' xs' with
      | Some s => Some (w * x + s)
      | None => None
      end
  | _, _ => None
  end.

Fixpoint score_rows (ws : list Z) (rows : list pyval) : option (list Z) :=
  match rows with
  | [] => Some []
  | PyList xs :: rows' =>
      match dot ws xs, score_rows ws rows' with
      | Some s, Some out => Some (s :: out)
      | _, _ => None
      end
  | _ :: _ => None
  end.

(** One score per row; a batch that is not a list of rows of the right
    width is refused, and an output has no [predict]. *)
Definition obj_predict (m : obj) (a : pyval) (w : files)
    : (string + obj) * files :=
  match m, a with
  | Linear ws, PyList rows =>
      match score_rows ws rows with
      | Some out => (inr (Scores out), w)
      | None => (inl "ValueError", w)
      end
  | Linear _, _ => (inl "ValueError", w)
  | Scores _, _ => (inl "AttributeError", w)
  end.

Definition lookup_path (name : string) (w : files) : (string + string) * files :=
  match registry w !! name with
  | Some path => (inr path, w)
  | None => (inl "ModelNotFound", w)
  end.

Definition read_model (path : string) (w : files) : (string + obj) * files :=
  match disk w !! path with
  | Some m => (inr m, w)
  | None => (inl "OSError", w)
  end.

Definition collab : Collaborators := {|
  PyObj := obj;
  NdArray := pyval;
  PyExc := string;
  World := files;
  json_loads := decode;
  np_asarray := fun v => inr v;
  get_model_path := lookup_path;
  load_model := read_model;
  predict := obj_predict
|}.

(** *** Worlds, states and payloads *)

Definition artifact : string := "azureml-models/model.h5/1/model.h5".

(** The model is registered and its file holds a predictor. *)
Definition deployed : files :=
  Files {[ "model.h5" := artifact ]} {[ artifact := Linear [1; 2; 3] ]}.

(** The same name now resolves to a retrained predictor. *)
Definition redeployed : files :=
  Files {[ "model.h5" := artifact ]} {[ artifact := Linear [2; 0; 1] ]}.

(** Nothing is registered. *)
Definition unregistered : files := Files ∅ ∅.

(** The name is registered, the file is missing. *)
Definition dangling : files := Files {[ "model.h5" := artifact ]} ∅.

(** A process in which no hook has run yet. *)
Definition fresh (w : files) : state collab := @State collab ∅ w [].

Definition quoted (s : string) : string := String dq (s +:+ String dq EmptyString).

(** [{"data": [[1,2,3]]}] *)
Definition payload_digits : string :=
  "{" +:+ quoted "data" +:+ ": [[1,2,3]]}".

(** [{"id": 7, "data": [[1,2,3]]}] *)
Definition payload_tagged : string :=
  "{" +:+ quoted "id" +:+ ": 7, " +:+ quoted "data" +:+ ": [[1,2,3]]}".

(** [{"data": "seven"}] *)
Definition payload_text : string :=
  "{" +:+ quoted "data" +:+ ": " +:+ quoted "seven" +:+ "}".

(** [{"pixels": [[1,2,3]]}] *)
Definition payload_misnamed : string :=
  "{" +:+ quoted "pixels" +:+ ": [[1,2,3]]}".

Definition batch : pyval := PyList [PyList [PyInt 1; PyInt 2; PyInt 3]].

(** The process once [init] has returned. *)
Definition serving : state collab := (init collab (fresh deployed)).2.

(** The serving process after the artifact on disk was replaced. *)
Definition restaged : state collab :=
  @State collab (globals serving) redeployed (trace serving).

(** The serving process after the model was removed from the registry. *)
Definition orphaned : state collab :=
  @State collab (globals serving) unregistered (trace serving).

End Sample.

(** ** The grammar of JSON

    A recogniser for the JSON texts of RFC 8259: whitespace, the three
    literal names, numbers with optional fraction and exponent, strings
    with their escapes, arrays and objects. *)
Module Json.

Definition is_digit (c : ascii) : bool :=
  match Sample.digit_of c with
  | Some _ => true
  | None => false
  end.

Definition is_hex (c : ascii) : bool :=
  let n := nat_of_ascii c in
  is_digit c || ((65 <=? n) && (n <=? 70))%nat || ((97 <=? n) && (n <=? 102))%nat.

Fixpoint skip_digits (s : string) : string :=
  match s with
  | String c r => if is_digit c then skip_digits r else s
  | EmptyString => s
  end.

(** One digit or more. *)
Definition digits1 (s : string) : option string :=
  match s with
  | String c r => if is_digit c then Some (skip_digits r) else None
  | EmptyString => None
  end.

(** [0], or a digit from 1 to 9 followed by digits. *)
Definition int_part (s : string) : option string :=
  match s with
  | String c r =>
      if Ascii.eqb c "0" then Some r
      else if is_digit c then Some (skip_digits r)
      else None
  | EmptyString => None
  end.

Definition frac_part (s : string) : option string :=
  match s with
  | String "." r => digits1 r
  | _ => Some s
  end.

Definition exp_part (s : string) : option string :=
  match s with
  | String c r =>
      if Ascii.eqb c "e" || Ascii.eqb c "E" then
        match r with
        | String sign r' =>
            if Ascii.eqb sign "+" || Ascii.eqb sign "-" then digits1 r'
            else digits1 r
        | EmptyString => None
        end
      else Some s
  | EmptyString => Some s
  end.

Definition number (s : string) : option string :=
  let unsigned := match s with String "-" r => r | _ => s end in
  match int_part unsigned with
  | Some r =>
      match frac_part r with
      | Some r' => exp_part r'
      | None => None
      end
  | None => None
  end.

Definition is_escape (c : ascii) : bool :=
  Ascii.eqb c Sample.dq || Ascii.eqb c "\" || Ascii.eqb c "/" ||
  Ascii.eqb c "b" || Ascii.eqb c "f" || Ascii.eqb c "n" ||
  Ascii.eqb c "r" || Ascii.eqb c "t".

(** The characters of a string up to and including the closing quote. *)
Fixpoint string_body (s : string) : option string :=
  match s with
  | EmptyString => None
  | String c r =>
      if Ascii.eqb c Sample.dq then Some r
      else if Ascii.eqb c "\" then
        match r with
        | String e r' =>
            if is_escape e then string_body r'
            else if Ascii.eqb e "u" then
              match r' with
              | String h1 (String h2 (String h3 (String h4 r''))) =>
                  if is_hex h1 && is_hex h2 && is_hex h3 && is_hex h4
                  then string_body r''
                  else None
              | _ => None
              end
            else None
        | EmptyString => None
        end
      else if (nat_of_ascii c <? 32)%nat then None
      else string_body r
  end.

Definition literal (s : string) : option string :=
  match Sample.strip_prefix "null" s, Sample.strip_prefix "true" s,
        Sample.strip_prefix "false" s with
  | Some r, _, _ => Some r
  | _, Some r, _ => Some r
  | _, _, Some r => Some r
  | _, _, _ => number s
  end.

(** A value, and what follows it. *)
Fixpoint value (fuel : nat) (s : string) : option string :=
  match fuel with
  | O => None
  | S fuel' =>
      match Sample.skip_ws s with
      | String "[" r =>
          match Sample.skip_ws r with
          | String "]" r' => Some r'
          | _ => elements fuel' r
          end
      | String "{" r =>
          match Sample.skip_ws r with
          | String "}" r' => Some r'
          | _ => members fuel' r
          end
      | String c r =>
          if Ascii.eqb c Sample.dq then string_body r
          else literal (String c r)
      | EmptyString => None
      end
  end
with elements (fuel : nat) (s : string) : option string :=
  match fuel with
  | O => None
  | S fuel' =>
      match value fuel' s with
      | Some r =>
          match Sample.skip_ws r with
          | String "," r' => elements fuel' r'
          | String "]" r' => Some r'
          | _ => None
          end
      | None => None
      end
  end
with members (fuel : nat) (s : string) : option string :=
  match fuel with
  | O => None
  | S fuel' =>
      match Sample.skip_ws s with
      | String c r =>
          if Ascii.eqb c Sample.dq then
            match string_body r with
            | Some r1 =>
                match Sample.skip_ws r1 with
                | String ":" r2 =>
                    match value fuel' r2 with
                    | Some r3 =>
                        match Sample.skip_ws r3 with
                        | String "," r4 => members fuel' r4
                        | String "}" r4 => Some r4
                        | _ => None
                        end
                    | None => None
                    end
                | _ => None
                end
            | None => None
            end
          else None
      | EmptyString => None
      end
  end.

(** A JSON text: one value between optional whitespace. *)
Definition valid (s : string) : bool :=
  match value (2 * String.length s + 2) s with
  | Some r =>
      match Sample.skip_ws r with
      | EmptyString => true
      | String _ _ => false
      end
  | None => false
  end.

End Json.

(** ** Collaborators with the constants of [json.loads]

    Called with its defaults, as [run] calls it, [json.loads] also reads
    the constants [NaN], [Infinity] and [-Infinity], which are no JSON, as
    floats.  The decoder here is the sample decoder with these three
    constants; the other collaborators are the sample ones. *)
Module Lenient.

Import Sample.

Definition lenient_literal (s : string) : option (pyval * string) :=
  match strip_prefix "NaN" s, strip_prefix "Infinity" s,
        strip_prefix "-Infinity" s with
  | Some r, _, _ => Some (PyFloat S754_nan, r)
  | _, Some r, _ => Some (PyFloat (S754_infinity false), r)
  | _, _, Some r => Some (PyFloat (S754_infinity true), r)
  | _, _, _ => parse_literal s
  end.

Fixpoint lenient_value (fuel : nat) (s : string) : option (pyval * string) :=
  match fuel with
  | O => None
  | S fuel' =>
      match skip_ws s with
      | String "[" r =>
          match skip_ws r with
          | String "]" r' => Some (PyList [], r')
          | _ => lenient_elements fuel' r []
          end
      | String "{" r =>
          match skip_ws r with
          | String "}" r' => Some (PyDict ∅, r')
          | _ => lenient_members fuel' r ∅
          end
      | String c r =>
          if Ascii.eqb c dq then
            match parse_string_body r with
            | Some (body, r') => Some (PyStr body, r')
            | None => None
            end
          else lenient_literal (String c r)
      | EmptyString => None
      end
  end
with lenient_elements (fuel : nat) (s : string) (acc : list pyval)
    : option (pyval * string) :=
  match fuel with
  | O => None
  | S fuel' =>
      match lenient_value fuel' s with
      | Some (v, r) =>
          match skip_ws r with
          | String "," r' => lenient_elements fuel' r' (v :: acc)
          | String "]" r' => Some (PyList (rev (v :: acc)), r')
          | _ => None
          end
      | None => None
      end
  end
with lenient_members (fuel : nat) (s : string) (acc : gmap string pyval)
    : option (pyval * string) :=
  match fuel with
  | O => None
  | S fuel' =>
      match skip_ws s with
      | String c r =>
          if Ascii.eqb c dq then
            match parse_string_body r with
            | Some (key, r1) =>
                match skip_ws r1 with
                | String ":" r2 =>
                    match lenient_value fuel' r2 with
                    | Some (v, r3) =>
                        match skip_ws r3 with
                        | String "," r4 =>
                            lenient_members fuel' r4 (<[key := v]> acc)
                        | String "}" r4 =>
                            Some (PyDict (<[key := v]> acc), r4)
                        | _ => None
                        end
                    | None => None
                    end
                | _ => None
                end
            | None => None
            end
          else None
      | EmptyString => None
      end
  end.

Definition lenient_decode (s : string) : option pyval :=
  match lenient_value (2 * String.length s + 2) s with
  | Some (v, r) =>
      match skip_ws r with
      | EmptyString => Some v
      | String _ _ => None
      end
  | None => None
  end.

Definition lenient : Collaborators := {|
  PyObj := obj;
  NdArray := pyval;
  PyExc := string;
  World := files;
  json_loads := lenient_decode;
  np_asarray := fun v => inr v;
  get_model_path := lookup_path;
  load_model := read_model;
  predict := obj_predict
|}.

(** The process once [init] has returned. *)
Definition lenient_serving : state lenient :=
  (init lenient (@State lenient ∅ deployed [])).2.

(** [{"data": [[NaN,2,3]]}] *)
Definition payload_nan : string :=
  "{" +:+ quoted "data" +:+ ": [[NaN,2,3]]}".

End Lenient.

(** * Properties of the hooks *)

Section Properties.

Context (E : Collaborators).

Implicit Types (st : state E) (raw : string) (v j : pyval).

(** ** Stepping through [run] *)

Lemma run_not_json raw st :
  json_loads E raw = None -> run E raw st = (inl JSONDecodeError, st).
Proof.
  intros Hraw. unfold run, bind, lift, loads. by rewrite Hraw.
Qed.

Lemma run_no_field raw st j e :
  json_loads E raw = Some j ->
  subscript E j "data" = inl e ->
  run E raw st = (inl e, st).
Proof.
  intros Hraw Hsub. unfold run, bind, lift, loads. by rewrite Hraw, Hsub.
Qed.

Lemma run_asarray_raises raw st j v e :
  json_loads E raw = Some j ->
  subscript E j "data" = inr v ->
  np_asarray E v = inl e ->
  run E raw st = (inl (Raised InAsarray e), st).
Proof.
  intros Hraw Hsub Harr. unfold run, bind, lift, loads, asarray.
  by rewrite Hraw, Hsub, Harr.
Qed.

Lemma run_unbound raw st j v a :
  json_loads E raw = Some j ->
  subscript E j "data" = inr v ->
  np_asarray E v = inr a ->
  globals st !! "model" = None ->
  run E raw st = (inl (NameError "model"), st).
Proof.
  intros Hraw Hsub Harr Hm. unfold run, bind, lift, loads, asarray, load_global.
  by rewrite Hraw, Hsub, Harr, Hm.
Qed.

Lemma run_predicts raw st j v a m :
  json_loads E raw = Some j ->
  subscript E j "data" = inr v ->
  np_asarray E v = inr a ->
  globals st !! "model" = Some m ->
  run E raw st =
    ((match (predict E m a (world st)).1 with
      | inl e => inl (Raised InPredict e)
      | inr out => inr out
      end),
     State (globals st) (predict E m a (world st)).2
       (trace st ++ [CallPredict m a])).
Proof.
  intros Hraw Hsub Harr Hm.
  unfold run, bind, lift, loads, asarray, load_global, call.
  rewrite Hraw, Hsub, Harr, Hm. by destruct (predict E m a (world st)).
Qed.

(** With the predictor bound, [run] is the direct prediction on the field. *)
Lemma run_bound raw st j v m :
  json_loads E raw = Some j ->
  subscript E j "data" = inr v ->
  globals st !! "model" = Some m ->
  run E raw st = direct_predict E m v st.
Proof.
  intros Hraw Hsub Hm. unfold direct_predict.
  destruct (np_asarray E v) as [e|a] eqn:Harr.
  - by apply run_asarray_raises with j v.
  - rewrite (run_predicts raw st j v a m) by done.
    by destruct (predict E m a (world st)).
Qed.

Lemma run_cases raw st : run_outcome E raw st.
Proof.
  destruct (json_loads E raw) as [j|] eqn:Hraw.
  2: { by apply EndsInDecoder; [|apply run_not_json]. }
  destruct (subscript E j "data") as [e|v] eqn:Hsub.
  { by eapply EndsInSubscript; [..|eapply run_no_field]. }
  destruct (np_asarray E v) as [e|a] eqn:Harr.
  { by eapply EndsInAsarray; [..|eapply run_asarray_raises]. }
  destruct (globals st !! "model") as [m|] eqn:Hm.
  - by eapply EndsInPredict; [..|eapply run_predicts].
  - by eapply EndsUnbound; [..|eapply run_unbound].
Qed.

(** The subscription fails exactly when the payload has no such field, and
    then with a schema-stage exception. *)
Lemma subscript_field j key :
  subscript E j key =
    match field_of j key with
    | Some v => inr v
    | None => inl (match j with PyDict _ => KeyError key | _ => TypeError end)
    end.
Proof.
  destruct j; reflexivity.
Qed.

Lemma subscript_schema_stage j key e :
  subscript E j key = inl e -> stage_of e = SchemaStage.
Proof.
  rewrite subscript_field.
  destruct (field_of j key); [discriminate|].
  intros [= <-]. destruct j; reflexivity.
Qed.

(** ** Stepping through [init] *)

Lemma init_registry_raises st e w1 :
  get_model_path E "model.h5" (world st) = (inl e, w1) ->
  init E st =
    (inl (Raised InGetModelPath e),
     State (globals st) w1 (trace st ++ [CallGetModelPath "model.h5"])).
Proof.
  intros Hpath. unfold init, bind, call. by rewrite Hpath.
Qed.

Lemma init_loader_raises st path w1 e w2 :
  get_model_path E "model.h5" (world st) = (inr path, w1) ->
  load_model E path w1 = (inl e, w2) ->
  init E st =
    (inl (Raised InLoadModel e),
     State (globals st) w2
       (trace st ++ [CallGetModelPath "model.h5"; CallLoadModel path])).
Proof.
  intros Hpath Hload. unfold init, bind, call. rewrite Hpath. simpl.
  rewrite Hload. by rewrite <- app_assoc.
Qed.

Lemma init_loaded st path w1 m w2 :
  get_model_path E "model.h5" (world st) = (inr path, w1) ->
  load_model E path w1 = (inr m, w2) ->
  init E st =
    (inr tt,
     State (<["model" := m]> (globals st)) w2
       (trace st ++ [CallGetModelPath "model.h5"; CallLoadModel path])).
Proof.
  intros Hpath Hload. unfold init, bind, call, store_global. rewrite Hpath.
  simpl. rewrite Hload. simpl. by rewrite <- app_assoc.
Qed.

(** A successful [init] went through both collaborators. *)
Lemma init_returned st st' :
  init E st = (inr tt, st') ->
  exists path w1 m,
    get_model_path E "model.h5" (world st) = (inr path, w1) /\
    load_model E path w1 = (inr m, world st') /\
    globals st' = <["model" := m]> (globals st).
Proof.
  intros Hinit.
  destruct (get_model_path E "model.h5" (world st)) as [[e|path] w1] eqn:Hpath.
  { rewrite (init_registry_raises st e w1) in Hinit; done. }
  destruct (load_model E path w1) as [[e|m] w2] eqn:Hload.
  { rewrite (init_loader_raises st path w1 e w2) in Hinit; done. }
  rewrite (init_loaded st path w1 m w2) in Hinit by done.
  injection Hinit as <-. exists path, w1, m. by rewrite Hload.
Qed.

Lemma read_only_repeatable :
  read_only_predictor E -> repeatable_predictor E.
Proof. intros Hro m a w. by rewrite Hro. Qed.

(** ** The scoring hook *)

(** C1. After a successful [init], [run] on a payload that decodes to an
    object with a [data] field is [model.predict(np.asarray(payload['data']))]
    on the predictor [init] stored: same outcome, same effect, and when the
    predictor returns [out], [run] returns that very [out]. *)
Theorem run_returns_prediction st0 st raw (fields : gmap string pyval) v :
  init E st0 = (inr tt, st) ->
  json_loads E raw = Some (PyDict fields) ->
  fields !! "data" = Some v ->
  exists m,
    globals st !! "model" = Some m /\
    run E raw st = direct_predict E m v st /\
    forall a out w,
      np_asarray E v = inr a ->
      predict E m a (world st) = (inr out, w) ->
      run E raw st =
        (inr out, State (globals st) w (trace st ++ [CallPredict m a])).
Proof.
  intros Hinit Hraw Hdata.
  destruct (init_returned st0 st Hinit) as (path & w1 & m & _ & _ & Hglobals).
  assert (Hm : globals st !! "model" = Some m).
  { rewrite Hglobals. apply lookup_insert_eq. }
  assert (Hsub : subscript E (PyDict fields) "data" = inr v).
  { simpl. by rewrite Hdata. }
  exists m. split; [done|]. split.
  - by apply run_bound with (PyDict fields).
  - intros a out w Harr Hpred.
    rewrite (run_predicts raw st (PyDict fields) v a m) by done.
    by rewrite Hpred.
Qed.

(** C3, amended. A payload [json.loads] rejects makes [run] raise the
    decoder's exception, a parse-stage one, with the state as it was:
    nothing was called, the predictor least of all.  A payload [json.loads]
    accepts, JSON or not, does not fail at the parse stage. *)
Theorem run_rejects_malformed raw st :
  (json_loads E raw = None ->
   run E raw st = (inl JSONDecodeError, st) /\
   stage_of (@JSONDecodeError E) = ParseStage /\
   trace (run E raw st).2 = trace st) /\
  (forall j e,
     json_loads E raw = Some j ->
     (run E raw st).1 = inl e ->
     stage_of e <> ParseStage).
Proof.
  split.
  - intros Hraw. rewrite (run_not_json raw st Hraw). done.
  - intros j0 e Hsome.
    destruct (run_cases raw st) as [Hnone ?|j e' ? Hsub Hrun|? ? ? ? ? ? Hrun
      |? ? ? ? ? ? ? Hrun|? ? a m ? ? ? ? Hrun]; [congruence|..];
      rewrite Hrun; simpl.
    + intros [= <-]. by rewrite (subscript_schema_stage j "data" e' Hsub).
    + by intros [= <-].
    + by intros [= <-].
    + destruct (predict E m a (world st)).1; [|done]. by intros [= <-].
Qed.

(** C4, amended. A decoded payload without a [data] field makes [run] raise
    a schema-stage exception with the state as it was.  A [data] value that
    is present is not inspected by [run]: it goes to [np.asarray], whose
    exception, if it raises, propagates before any call of the predictor,
    and whose array is otherwise passed to the predictor. *)
Theorem run_schema_stage raw st j :
  json_loads E raw = Some j ->
  (field_of j "data" = None ->
   exists e, run E raw st = (inl e, st) /\ stage_of e = SchemaStage) /\
  (forall v e,
     field_of j "data" = Some v ->
     np_asarray E v = inl e ->
     run E raw st = (inl (Raised InAsarray e), st)) /\
  (forall v a m,
     field_of j "data" = Some v ->
     np_asarray E v = inr a ->
     globals st !! "model" = Some m ->
     trace (run E raw st).2 = trace st ++ [CallPredict m a]).
Proof.
  intros Hraw. pose proof (subscript_field j "data") as Hsub.
  repeat split.
  - intros Hnone. rewrite Hnone in Hsub. eexists. split.
    + by eapply run_no_field.
    + by eapply subscript_schema_stage.
  - intros v e Hsome Harr. rewrite Hsome in Hsub.
    by apply run_asarray_raises with j v.
  - intros v a m Hsome Harr Hm. rewrite Hsome in Hsub.
    by rewrite (run_predicts raw st j v a m).
Qed.

(** C6. While the global [model] is unbound, [run] raises on every payload
    and leaves the state as it was; it returns no value. *)
Theorem run_before_init_fails raw st :
  globals st !! "model" = None ->
  exists e, run E raw st = (inl e, st).
Proof.
  intros Hm. destruct (run_cases raw st) as [| | | |j v a m ? ? ? Hbound ?];
    [by eexists..|].
  congruence.
Qed.

(** C7. With a repeatable predictor (a predictor that only reads is one), a
    second [run] on the same payload, made in the state the first one left,
    has the outcome of the first: [run] keeps no state of its own between
    calls. *)
Theorem run_deterministic raw st :
  repeatable_predictor E ->
  (run E raw (run E raw st).2).1 = (run E raw st).1.
Proof.
  intros Hrep.
  destruct (run_cases raw st) as [? Hrun|? ? ? ? Hrun|? ? ? ? ? ? Hrun
    |? ? ? ? ? ? ? Hrun|j v a m Hraw Hsub Harr Hm Hrun];
    try (rewrite Hrun; simpl; by rewrite Hrun).
  rewrite Hrun. simpl.
  rewrite (run_predicts raw _ j v a m) by done. simpl.
  by rewrite Hrep.
Qed.

(** C8. [run] never rebinds a global, and the state it leaves is either the
    state it found or that state after one call of the bound predictor;
    with a predictor that only reads, the world is as it was too. *)
Theorem run_frame raw st :
  globals (run E raw st).2 = globals st /\
  ((run E raw st).2 = st \/
   exists m a,
     globals st !! "model" = Some m /\
     (run E raw st).2 =
       State (globals st) (predict E m a (world st)).2
         (trace st ++ [CallPredict m a])) /\
  (read_only_predictor E -> world (run E raw st).2 = world st).
Proof.
  destruct (run_cases raw st) as [? Hrun|? ? ? ? Hrun|? ? ? ? ? ? Hrun
    |? ? ? ? ? ? ? Hrun|j v a m Hraw Hsub Harr Hm Hrun];
    rewrite Hrun; simpl; try (by auto).
  split; [done|]. split; [right; by exists m, a|]. intros Hro. apply Hro.
Qed.

(** C9. Two payloads that decode to objects with the same [data] entry
    make [run] do the same thing in the same state, whatever else the
    objects hold. *)
Theorem run_ignores_other_fields raw1 raw2 (fields1 fields2 : gmap string pyval) st :
  json_loads E raw1 = Some (PyDict fields1) ->
  json_loads E raw2 = Some (PyDict fields2) ->
  fields1 !! "data" = fields2 !! "data" ->
  run E raw1 st = run E raw2 st.
Proof.
  intros Hraw1 Hraw2 Hdata. unfold run, bind, lift, loads.
  rewrite Hraw1, Hraw2. simpl. by rewrite Hdata.
Qed.

(** ** The initialization hook *)

(** C2. [init] asks the registry for the path of the constant name
    ['model.h5'], has the loader read that path, binds the global [model]
    to the predictor it got, where the scoring hook's read of [model] finds
    it, and returns nothing. *)
Theorem init_loads_and_stores st path w1 m w2 :
  get_model_path E "model.h5" (world st) = (inr path, w1) ->
  load_model E path w1 = (inr m, w2) ->
  init E st =
    (inr tt,
     State (<["model" := m]> (globals st)) w2
       (trace st ++ [CallGetModelPath "model.h5"; CallLoadModel path])) /\
  load_global E "model" (init E st).2 = (inr m, (init E st).2).
Proof.
  intros Hpath Hload. rewrite (init_loaded st path w1 m w2) by done.
  split; [done|]. unfold load_global. simpl. by rewrite lookup_insert_eq.
Qed.

(** C5. When the registry does not resolve the name, or the loader does not
    read the file, [init] raises a load-stage exception and the globals are
    what they were: [model] is bound only after both calls returned. *)
Theorem init_failure_is_atomic st :
  (exists e w1, get_model_path E "model.h5" (world st) = (inl e, w1)) \/
  (exists path w1 e w2,
     get_model_path E "model.h5" (world st) = (inr path, w1) /\
     load_model E path w1 = (inl e, w2)) ->
  exists e,
    (init E st).1 = inl e /\
    stage_of e = LoadStage /\
    globals (init E st).2 = globals st.
Proof.
  intros [(e & w1 & Hpath)|(path & w1 & e & w2 & Hpath & Hload)].
  - rewrite (init_registry_raises st e w1 Hpath). by eexists.
  - rewrite (init_loader_raises st path w1 e w2 Hpath Hload). by eexists.
Qed.

(** C10. [init] succeeds whatever [model] was bound to: it rebinds [model]
    to the predictor just loaded, leaves every other global as it was, and
    the world is the one the two collaborator calls left. *)
Theorem init_rebinds_model st path w1 m w2 :
  get_model_path E "model.h5" (world st) = (inr path, w1) ->
  load_model E path w1 = (inr m, w2) ->
  (init E st).1 = inr tt /\
  globals (init E st).2 !! "model" = Some m /\
  (forall name, name <> "model" ->
     globals (init E st).2 !! name = globals st !! name) /\
  world (init E st).2 = w2.
Proof.
  intros Hpath Hload. rewrite (init_loaded st path w1 m w2) by done. simpl.
  split; [done|]. split; [apply lookup_insert_eq|]. split; [|done].
  intros name Hname. by apply lookup_insert_ne.
Qed.

End Properties.

(** * The hooks on the sample collaborators *)

Section Runs.

Import Sample.

Lemma sample_predictor_reads_only : read_only_predictor collab.
Proof.
  intros m a w. simpl. unfold obj_predict.
  destruct m as [ws|out]; [|reflexivity].
  destruct a as [| | | | |rows|]; try reflexivity.
  destruct (score_rows ws rows); reflexivity.
Qed.

(** The linear predictor with weights 1, 2, 3 scores the row 1, 2, 3 at
    14, through [run] as on its own. *)
Example run_digits :
  (run collab payload_digits serving).1 = inr (Scores [14]) /\
  (obj_predict (Linear [1; 2; 3]) batch deployed).1 = inr (Scores [14]).
Proof. split; reflexivity. Qed.

(** A string under [data] reaches the predictor, which refuses it. *)
Example run_text :
  run collab payload_text serving =
    (inl (@Raised collab InPredict "ValueError"%string),
     @State collab (globals serving) (world serving)
       (trace serving ++
          [@CallPredict collab (Linear [1; 2; 3]) (PyStr "seven")])).
Proof. reflexivity. Qed.

(** Before [init], the decoder and the subscription still come first. *)
Example run_unready :
  (run collab "not json" (fresh deployed)).1 = inl JSONDecodeError /\
  (run collab payload_misnamed (fresh deployed)).1 = inl (KeyError "data") /\
  (run collab "[1, 2]" (fresh deployed)).1 = inl TypeError /\
  (run collab payload_digits (fresh deployed)).1 = inl (NameError "model").
Proof. repeat split; reflexivity. Qed.

(** [init] in a fresh process, then [run] on [{"data": [[1,2,3]]}]. *)
Lemma run_returns_prediction_witness :
  exists m,
    globals serving !! "model" = Some m /\
    run collab payload_digits serving = direct_predict collab m batch serving /\
    forall a out w,
      np_asarray collab batch = inr a ->
      predict collab m a (world serving) = (inr out, w) ->
      run collab payload_digits serving =
        (inr out,
         State (globals serving) w (trace serving ++ [CallPredict m a])).
Proof.
  apply (run_returns_prediction collab (fresh deployed) serving payload_digits
           {[ "data" := batch ]} batch); reflexivity.
Defined.

Lemma run_rejects_malformed_witness :
  run collab "not json" serving = (inl JSONDecodeError, serving) /\
  stage_of (@JSONDecodeError collab) = ParseStage /\
  trace (run collab "not json" serving).2 = trace serving.
Proof.
  apply (run_rejects_malformed collab "not json" serving).
  reflexivity.
Defined.

(** [NaN] is no JSON text, yet [json.loads] reads it as a float; [run] then
    fails at the subscription, with [TypeError]. *)
Lemma run_rejects_malformed_counterexample :
  ~ (forall raw st,
       Json.valid raw = false ->
       exists e,
         (run Lenient.lenient raw st).1 = inl e /\
         stage_of e = ParseStage /\
         trace (run Lenient.lenient raw st).2 = trace st).
Proof.
  intros Hclaim.
  destruct (Hclaim "NaN"%string Lenient.lenient_serving)
    as (e & Hrun & Hstage & _); [reflexivity|].
  assert (Hfst : (run Lenient.lenient "NaN" Lenient.lenient_serving).1 =
                 inl (@TypeError Lenient.lenient)) by reflexivity.
  rewrite Hfst in Hrun. injection Hrun as <-. discriminate Hstage.
Qed.

(** [{"data": [[NaN,2,3]]}] is no JSON text either, and goes all the way to
    the predictor. *)
Example run_nan_in_data :
  Json.valid Lenient.payload_nan = false /\
  trace (run Lenient.lenient Lenient.payload_nan Lenient.lenient_serving).2 =
    trace Lenient.lenient_serving ++
      [@CallPredict Lenient.lenient (Linear [1; 2; 3])
         (PyList [PyList [PyFloat S754_nan; PyInt 2; PyInt 3]])].
Proof. split; reflexivity. Qed.

(** [{"data": "seven"}] decodes, its [data] is no array of numbers, and
    [run] calls the predictor on it; the exception is the predictor's. *)
Lemma run_schema_stage_counterexample :
  ~ (forall raw st j,
       json_loads collab raw = Some j ->
       field_of j "data" = None \/
       (exists v, field_of j "data" = Some v /\ numeric_array v = false) ->
       exists e,
         (run collab raw st).1 = inl e /\
         stage_of e = SchemaStage /\
         trace (run collab raw st).2 = trace st).
Proof.
  intros Hclaim.
  destruct (Hclaim payload_text serving (PyDict {[ "data" := PyStr "seven" ]}))
    as (e & Hrun & Hstage & _).
  - reflexivity.
  - right. exists (PyStr "seven"). split; reflexivity.
  - assert (Hfst : (run collab payload_text serving).1 =
                   inl (@Raised collab InPredict "ValueError"%string)) by reflexivity.
    rewrite Hfst in Hrun. injection Hrun as <-. discriminate Hstage.
Qed.

(** [{"pixels": [[1,2,3]]}] has no [data]. *)
Lemma run_schema_stage_witness :
  exists e,
    run collab payload_misnamed serving = (inl e, serving) /\
    stage_of e = SchemaStage.
Proof.
  apply (run_schema_stage collab payload_misnamed serving
           (PyDict {[ "pixels" := batch ]})); reflexivity.
Defined.

Lemma run_before_init_fails_witness :
  exists e, run collab payload_digits (fresh deployed) = (inl e, fresh deployed).
Proof.
  apply (run_before_init_fails collab payload_digits (fresh deployed)).
  reflexivity.
Defined.

Lemma run_deterministic_witness :
  (run collab payload_digits (run collab payload_digits serving).2).1 =
  (run collab payload_digits serving).1.
Proof.
  apply (run_deterministic collab payload_digits serving).
  apply read_only_repeatable. exact sample_predictor_reads_only.
Defined.

(** The state [run] leaves on [{"data": [[1,2,3]]}]. *)
Lemma run_frame_witness :
  globals (run collab payload_digits serving).2 = globals serving /\
  ((run collab payload_digits serving).2 = serving \/
   exists m a,
     globals serving !! "model" = Some m /\
     (run collab payload_digits serving).2 =
       State (globals serving) (predict collab m a (world serving)).2
         (trace serving ++ [CallPredict m a])) /\
  (read_only_predictor collab ->
   world (run collab payload_digits serving).2 = world serving).
Proof.
  apply (run_frame collab payload_digits serving).
Defined.

(** [{"data": [[1,2,3]]}] and [{"id": 7, "data": [[1,2,3]]}]. *)
Lemma run_ignores_other_fields_witness :
  run collab payload_digits serving = run collab payload_tagged serving.
Proof.
  apply (run_ignores_other_fields collab payload_digits payload_tagged
           {[ "data" := batch ]}
           (<[ "id" := PyInt 7 ]> {[ "data" := batch ]}) serving);
    reflexivity.
Defined.

Lemma init_loads_and_stores_witness :
  init collab (fresh deployed) =
    (inr tt,
     State (<["model" := Linear [1; 2; 3]]> (globals (fresh deployed))) deployed
       (trace (fresh deployed) ++
          [CallGetModelPath "model.h5"; CallLoadModel artifact])) /\
  load_global collab "model" (init collab (fresh deployed)).2 =
    (inr (Linear [1; 2; 3]), (init collab (fresh deployed)).2).
Proof.
  apply (init_loads_and_stores collab (fresh deployed) artifact deployed
           (Linear [1; 2; 3]) deployed); reflexivity.
Defined.

(** Nothing is registered under the name; then, the name resolves and the
    file is missing. *)
Lemma init_failure_is_atomic_witness :
  (exists e,
     (init collab (fresh unregistered)).1 = inl e /\
     stage_of e = LoadStage /\
     globals (init collab (fresh unregistered)).2 = globals (fresh unregistered)) /\
  (exists e,
     (init collab (fresh dangling)).1 = inl e /\
     stage_of e = LoadStage /\
     globals (init collab (fresh dangling)).2 = globals (fresh dangling)).
Proof.
  split.
  - apply (init_failure_is_atomic collab (fresh unregistered)).
    left. exists "ModelNotFound"%string, unregistered. reflexivity.
  - apply (init_failure_is_atomic collab (fresh dangling)).
    right. exists artifact, dangling, "OSError"%string, dangling.
    split; reflexivity.
Defined.

(** A second [init], with [model] already bound and a new artifact on
    disk. *)
Lemma init_rebinds_model_witness :
  globals restaged !! "model" = Some (Linear [1; 2; 3]) /\
  (init collab restaged).1 = inr tt /\
  globals (init collab restaged).2 !! "model" = Some (Linear [2; 0; 1]) /\
  (forall name, name <> "model"%string ->
     globals (init collab restaged).2 !! name = globals restaged !! name) /\
  world (init collab restaged).2 = redeployed.
Proof.
  split; [reflexivity|].
  apply (init_rebinds_model collab restaged artifact redeployed
           (Linear [2; 0; 1]) redeployed); reflexivity.
Defined.

End Runs.

(** * Failures, call order and sequences of calls *)

Section Composition.

Context (E : Collaborators).

Implicit Types (st : state E) (raw : string) (v j : pyval).
Implicit Types (payloads : list string).

(** ** More steps through [run] and [init] *)

Lemma run_keeps_globals raw st : globals (run E raw st).2 = globals st.
Proof.
  destruct (run_cases E raw st) as [? Hrun|? ? ? ? Hrun|? ? ? ? ? ? Hrun
    |? ? ? ? ? ? ? Hrun|? ? ? ? ? ? ? ? Hrun]; by rewrite Hrun.
Qed.

(** Of the state, the steps of [run] use the binding of [model] and the
    world (the names bound at import time are not part of the state). *)
Lemma run_reads raw st1 st2 :
  globals st1 !! "model" = globals st2 !! "model" ->
  world st1 = world st2 ->
  (run E raw st1).1 = (run E raw st2).1 /\
  world (run E raw st1).2 = world (run E raw st2).2.
Proof.
  intros Hm Hw. unfold run, bind, lift, loads, asarray, load_global, call.
  destruct (json_loads E raw) as [j|]; [|done].
  destruct (subscript E j "data") as [e|v]; [done|].
  destruct (np_asarray E v) as [e|a]; [done|].
  simpl. rewrite Hm. destruct (globals st2 !! "model") as [m|]; [|done].
  simpl. rewrite Hw. by destruct (predict E m a (world st2)).
Qed.

(** The calls one [run] adds to the record: none, or one of the bound
    predictor. *)
Lemma run_trace raw st :
  trace (run E raw st).2 = trace st \/
  exists m a,
    globals st !! "model" = Some m /\
    trace (run E raw st).2 = trace st ++ [CallPredict m a].
Proof.
  destruct (run_cases E raw st) as [? Hrun|? ? ? ? Hrun|? ? ? ? ? ? Hrun
    |? ? ? ? ? ? ? Hrun|j v a m ? ? ? Hm Hrun]; rewrite Hrun; auto.
  right. by exists m, a.
Qed.

Lemma init_raises st e :
  (init E st).1 = inl e ->
  stage_of e = LoadStage /\ globals (init E st).2 = globals st.
Proof.
  destruct (get_model_path E "model.h5" (world st)) as [[e1|path] w1] eqn:Hpath.
  { rewrite (init_registry_raises E st e1 w1 Hpath). by intros [= <-]. }
  destruct (load_model E path w1) as [[e2|m] w2] eqn:Hload.
  { rewrite (init_loader_raises E st path w1 e2 w2 Hpath Hload).
    by intros [= <-]. }
  by rewrite (init_loaded E st path w1 m w2 Hpath Hload).
Qed.

Lemma serve_cons raw payloads st :
  serve E (raw :: payloads) st =
    ((run E raw st).1 :: (serve E payloads (run E raw st).2).1,
     (serve E payloads (run E raw st).2).2).
Proof.
  simpl. destruct (run E raw st) as [r st']. simpl.
  by destruct (serve E payloads st').
Qed.

Lemma serve_keeps_globals payloads st :
  globals (serve E payloads st).2 = globals st.
Proof.
  revert st. induction payloads as [|raw rest IH]; intros st; [done|].
  rewrite serve_cons. simpl. rewrite IH. apply run_keeps_globals.
Qed.

(** ** Failures of [run] *)

(** X1. A call of [run] that raises anything but the predictor's own
    exception leaves the state exactly as it was; one that raises the
    predictor's exception made exactly one call, of the bound predictor. *)
Theorem run_failure_effect raw st e :
  (run E raw st).1 = inl e ->
  (stage_of e <> PredictStage -> (run E raw st).2 = st) /\
  (stage_of e = PredictStage ->
   exists m a,
     globals st !! "model" = Some m /\
     trace (run E raw st).2 = trace st ++ [CallPredict m a]).
Proof.
  destruct (run_cases E raw st) as [? Hrun|j e' ? Hsub Hrun|? ? ? ? ? ? Hrun
    |? ? ? ? ? ? ? Hrun|j v a m ? ? ? Hm Hrun]; rewrite Hrun; simpl.
  - by intros [= <-].
  - intros [= <-]. split; [done|]. intros Hstage.
    by rewrite (subscript_schema_stage E j "data" e' Hsub) in Hstage.
  - by intros [= <-].
  - by intros [= <-].
  - destruct (predict E m a (world st)).1 as [e0|out]; [|done].
    intros [= <-]. split; [done|]. intros _. by exists m, a.
Qed.

(** X2. On a payload that decodes to an object without the key [data],
    [run] raises [KeyError('data')]; on one that decodes to anything but an
    object (a list, a string, a number, [true], [null]) it raises
    [TypeError].  Either way the state is as it was. *)
Theorem run_missing_field raw st j :
  json_loads E raw = Some j ->
  field_of j "data" = None ->
  run E raw st =
    (inl (match j with PyDict _ => KeyError "data" | _ => TypeError end), st).
Proof.
  intros Hraw Hnone. apply run_no_field with j; [done|].
  rewrite subscript_field. by rewrite Hnone.
Qed.

(** X3. [run] raises [NameError] for [model] exactly when [model] is
    unbound and the payload went all the way through: it decoded, it had a
    [data] field, and [np.asarray] accepted the value.  A bad payload is
    reported as such even before [init]. *)
Theorem run_name_error_iff raw st :
  (run E raw st).1 = inl (NameError "model") <->
  globals st !! "model" = None /\
  exists j v a,
    json_loads E raw = Some j /\
    field_of j "data" = Some v /\
    np_asarray E v = inr a.
Proof.
  split.
  - destruct (run_cases E raw st) as [? Hrun|j e Hraw Hsub Hrun
      |? ? ? ? ? ? Hrun|j v a Hraw Hsub Harr Hm Hrun|j v a m ? ? ? Hm Hrun];
      rewrite Hrun; simpl; try done.
    + intros [= ->]. by apply subscript_schema_stage in Hsub.
    + intros _. split; [done|]. exists j, v, a. split; [done|]. split; [|done].
      rewrite subscript_field in Hsub.
      destruct (field_of j "data"); congruence.
    + by destruct (predict E m a (world st)).1.
  - intros (Hm & j & v & a & Hraw & Hfield & Harr).
    rewrite (run_unbound E raw st j v a); try done.
    rewrite subscript_field. by rewrite Hfield.
Qed.

(** ** Calls made by [init] *)

(** X4. [init] always asks the registry first, for ['model.h5']; it calls
    the loader only when the registry returned, with the path it returned;
    it makes no other call. *)
Theorem init_calls st :
  trace (init E st).2 =
    trace st ++
      CallGetModelPath "model.h5" ::
      match (get_model_path E "model.h5" (world st)).1 with
      | inl _ => []
      | inr path => [CallLoadModel path]
      end.
Proof.
  destruct (get_model_path E "model.h5" (world st)) as [[e1|path] w1] eqn:Hpath.
  { by rewrite (init_registry_raises E st e1 w1 Hpath). }
  destruct (load_model E path w1) as [[e2|m] w2] eqn:Hload.
  - by rewrite (init_loader_raises E st path w1 e2 w2 Hpath Hload).
  - by rewrite (init_loaded E st path w1 m w2 Hpath Hload).
Qed.

(** X5. [init] returns exactly when the registry returned a path and the
    loader returned a predictor for that path; there is no other way for it
    to return, and none for it to fail. *)
Theorem init_returns_iff st :
  (init E st).1 = inr tt <->
  exists path w1 m w2,
    get_model_path E "model.h5" (world st) = (inr path, w1) /\
    load_model E path w1 = (inr m, w2).
Proof.
  split.
  - destruct (init E st) as [r st'] eqn:Hinit. simpl. intros ->.
    destruct (init_returned E st st' Hinit) as (path & w1 & m & Hpath & Hload & _).
    by exists path, w1, m, (world st').
  - intros (path & w1 & m & w2 & Hpath & Hload).
    by rewrite (init_loaded E st path w1 m w2 Hpath Hload).
Qed.

(** X6. A re-initialization that fails does not take the service down: the
    predictor bound before is still bound, and [run] predicts with it. *)
Theorem failed_init_keeps_predictor st m e raw j v :
  globals st !! "model" = Some m ->
  (init E st).1 = inl e ->
  json_loads E raw = Some j ->
  field_of j "data" = Some v ->
  globals (init E st).2 !! "model" = Some m /\
  run E raw (init E st).2 = direct_predict E m v (init E st).2.
Proof.
  intros Hm Hinit Hraw Hfield.
  destruct (init_raises st e Hinit) as [_ Hglobals].
  assert (Hm' : globals (init E st).2 !! "model" = Some m) by by rewrite Hglobals.
  split; [done|]. apply run_bound with j; [done| |done].
  rewrite subscript_field. by rewrite Hfield.
Qed.

(** X7. Two successful calls of [init] in a row leave the globals a single
    call with the second predictor would have left: nothing of the first
    binding remains, and the four collaborator calls are recorded in
    order. *)
Theorem init_twice st path1 w1 m1 w2 path2 w3 m2 w4 :
  get_model_path E "model.h5" (world st) = (inr path1, w1) ->
  load_model E path1 w1 = (inr m1, w2) ->
  get_model_path E "model.h5" w2 = (inr path2, w3) ->
  load_model E path2 w3 = (inr m2, w4) ->
  init E (init E st).2 =
    (inr tt,
     State (<["model" := m2]> (globals st)) w4
       (trace st ++
          [CallGetModelPath "model.h5"; CallLoadModel path1;
           CallGetModelPath "model.h5"; CallLoadModel path2])).
Proof.
  intros Hpath1 Hload1 Hpath2 Hload2.
  rewrite (init_loaded E st path1 w1 m1 w2 Hpath1 Hload1). simpl.
  rewrite (init_loaded E _ path2 w3 m2 w4) by done. simpl.
  by rewrite insert_insert_eq, <- app_assoc.
Qed.
(** ** Sequences of calls *)

(** X9. However many payloads are scored in a row, no global is rebound,
    and the calls made are calls of the predictor [model] is bound to, at
    most one per payload: never the registry, never the loader. *)
Theorem serve_calls payloads st :
  globals (serve E payloads st).2 = globals st /\
  exists evs,
    trace (serve E payloads st).2 = trace st ++ evs /\
    (length evs <= length payloads)%nat /\
    Forall (fun ev => exists m a,
              globals st !! "model" = Some m /\ ev = CallPredict m a) evs.
Proof.
  split; [apply serve_keeps_globals|].
  revert st. induction payloads as [|raw rest IH]; intros st.
  { exists []. by rewrite app_nil_r. }
  rewrite serve_cons. simpl.
  destruct (IH (run E raw st).2) as (evs & Htrace & Hlen & Hall).
  rewrite run_keeps_globals in Hall. rewrite Htrace.
  destruct (run_trace raw st) as [Hsame|(m & a & Hm & Hgrown)].
  - exists evs. rewrite Hsame. split; [done|]. split; [lia|done].
  - exists (CallPredict m a :: evs). rewrite Hgrown, <- app_assoc.
    split; [done|]. split; [simpl; lia|].
    constructor; [by exists m, a|done].
Qed.

(** X10. While [model] is unbound, no sequence of calls of [run] returns a
    value or changes anything: every outcome is an exception and the final
    state is the initial one. *)
Theorem serve_before_init payloads st :
  globals st !! "model" = None ->
  (serve E payloads st).2 = st /\
  Forall (fun r => exists e, r = inl e) (serve E payloads st).1.
Proof.
  intros Hm. induction payloads as [|raw rest [IHst IHall]]; [done|].
  rewrite serve_cons. simpl.
  assert (Hrun : exists e, run E raw st = (inl e, st)).
  { destruct (run_cases E raw st) as [| | | |? ? ? ? ? ? ? Hbound ?];
      [by eexists..|congruence]. }
  destruct Hrun as [e Hrun]. rewrite Hrun. simpl.
  split; [done|]. constructor; [by exists e|done].
Qed.

(** X11. With a predictor that only reads, the calls of a sequence do not
    influence one another: each payload gets the outcome it would get if it
    were scored first, and the world is left as it was. *)
Theorem serve_independent payloads st :
  read_only_predictor E ->
  (serve E payloads st).1 = map (fun raw => (run E raw st).1) payloads /\
  world (serve E payloads st).2 = world st.
Proof.
  intros Hro.
  assert (Hstep : forall raw st', world (run E raw st').2 = world st').
  { intros raw st'.
    destruct (run_cases E raw st') as [? Hrun|? ? ? ? Hrun|? ? ? ? ? ? Hrun
      |? ? ? ? ? ? ? Hrun|? ? ? ? ? ? ? ? Hrun]; rewrite Hrun; try done.
    apply Hro. }
  assert (Hgen : forall st',
    globals st' !! "model" = globals st !! "model" ->
    world st' = world st ->
    (serve E payloads st').1 = map (fun raw => (run E raw st).1) payloads /\
    world (serve E payloads st').2 = world st).
  { induction payloads as [|raw rest IH]; intros st' Hm Hw; [done|].
    rewrite serve_cons. simpl.
    destruct (IH (run E raw st').2) as [IHout IHw].
    - by rewrite run_keeps_globals.
    - by rewrite Hstep.
    - rewrite IHout, IHw. split; [|done].
      f_equal. by apply run_reads. }
  by apply Hgen.
Qed.

(** X12. Once [init] has returned, no call of [run], however many came
    before it, raises [NameError]: the binding of [model] is never lost. *)
Theorem serve_after_init st0 st payloads :
  init E st0 = (inr tt, st) ->
  Forall (fun r => forall name, r <> inl (NameError name))
    (serve E payloads st).1.
Proof.
  intros Hinit.
  destruct (init_returned E st0 st Hinit) as (path & w1 & m & _ & _ & Hglobals).
  assert (Hm : globals st !! "model" = Some m).
  { rewrite Hglobals. apply lookup_insert_eq. }
  clear Hinit Hglobals. revert st Hm.
  induction payloads as [|raw rest IH]; intros st Hm; [by constructor|].
  rewrite serve_cons. simpl. constructor.
  - intros name Hname.
    destruct (run_cases E raw st) as [? Hrun|j e ? Hsub Hrun|? ? ? ? ? ? Hrun
      |? ? ? ? ? ? Hunbound Hrun|? ? a m' ? ? ? ? Hrun];
      rewrite Hrun in Hname; simpl in Hname; try done.
    + injection Hname as ->. by apply subscript_schema_stage in Hsub.
    + congruence.
    + by destruct (predict E m' a (world st)).1.
  - apply IH. by rewrite run_keeps_globals.
Qed.

End Composition.

(** * Failures and sequences on the sample collaborators *)

Section Scenarios.

Import Sample.

(** [{"data": "seven"}]: the predictor's refusal, after one call of it. *)
Lemma run_failure_effect_witness :
  (stage_of (@Raised collab InPredict "ValueError"%string) <> PredictStage ->
   (run collab payload_text serving).2 = serving) /\
  (stage_of (@Raised collab InPredict "ValueError"%string) = PredictStage ->
   exists m a,
     globals serving !! "model" = Some m /\
     trace (run collab payload_text serving).2 =
       trace serving ++ [CallPredict m a]).
Proof.
  apply (run_failure_effect collab payload_text serving). reflexivity.
Defined.

(** [{"pixels": [[1,2,3]]}]: [KeyError('data')]. *)
Lemma run_missing_field_witness :
  run collab payload_misnamed serving = (inl (KeyError "data"), serving).
Proof.
  apply (run_missing_field collab payload_misnamed serving
           (PyDict {[ "pixels" := batch ]})); reflexivity.
Defined.

(** The model has left the registry; [init] fails, the old predictor still
    scores. *)
Lemma failed_init_keeps_predictor_witness :
  globals (init collab orphaned).2 !! "model" = Some (Linear [1; 2; 3]) /\
  run collab payload_digits (init collab orphaned).2 =
    direct_predict collab (Linear [1; 2; 3]) batch (init collab orphaned).2.
Proof.
  apply (failed_init_keeps_predictor collab orphaned (Linear [1; 2; 3])
           (@Raised collab InGetModelPath "ModelNotFound"%string)
           payload_digits (PyDict {[ "data" := batch ]}) batch); reflexivity.
Defined.

Lemma init_twice_witness :
  init collab (init collab (fresh deployed)).2 =
    (inr tt,
     @State collab (<["model" := Linear [1; 2; 3]]> (globals (fresh deployed)))
       deployed
       (trace (fresh deployed) ++
          [CallGetModelPath "model.h5"; CallLoadModel artifact;
           CallGetModelPath "model.h5"; CallLoadModel artifact])).
Proof.
  apply (init_twice collab (fresh deployed) artifact deployed (Linear [1; 2; 3])
           deployed artifact deployed (Linear [1; 2; 3]) deployed);
    reflexivity.
Defined.

(** Three requests before [init]. *)
Lemma serve_before_init_witness :
  (serve collab [payload_digits; "not json"%string; payload_misnamed]
     (fresh deployed)).2 = fresh deployed /\
  Forall (fun r => exists e, r = inl e)
    (serve collab [payload_digits; "not json"%string; payload_misnamed]
       (fresh deployed)).1.
Proof.
  apply (serve_before_init collab
           [payload_digits; "not json"%string; payload_misnamed]
           (fresh deployed)).
  reflexivity.
Defined.

(** A good request, a refused one, and the good one again. *)
Lemma serve_independent_witness :
  (serve collab [payload_digits; payload_text; payload_digits] serving).1 =
    map (fun raw => (run collab raw serving).1)
      [payload_digits; payload_text; payload_digits] /\
  world (serve collab [payload_digits; payload_text; payload_digits] serving).2 =
    world serving.
Proof.
  apply (serve_independent collab
           [payload_digits; payload_text; payload_digits] serving).
  exact sample_predictor_reads_only.
Defined.

Lemma serve_after_init_witness :
  Forall (fun r => forall name, r <> inl (NameError name))
    (serve collab ["not json"%string; payload_digits] serving).1.
Proof.
  apply (serve_after_init collab (fresh deployed) serving
           ["not json"%string; payload_digits]).
  reflexivity.
Defined.

(** The outcomes of that last sequence. *)
Example serve_outcomes :
  (serve collab [payload_digits; payload_text; payload_digits] serving).1 =
    [inr (Scores [14]);
     inl (@Raised collab InPredict "ValueError"%string);
     inr (Scores [14])].
Proof. reflexivity. Qed.

End Scenarios.
